(** * pytorch_lightning.core: the package's [__init__] module

    The file [src/pytorch_lightning/core/__init__.py] is a long documentation
    string (lines 1-313) followed by two relative imports, the assignment of
    the export list [__all__] and one commented-out line (lines 314-319).

    The development keeps the text of lines 314-319 as it is in the file,
    tokenises and parses it into the statement forms of Python's [ast]
    module, and runs the statements against a module namespace
    ([gmap string value]).  The sibling submodules [.decorators] and
    [.lightning] are reached only through the import system, which is a
    parameter of the execution: a [loader], for runs in which the siblings
    load without an exception and set nothing but themselves on the
    package, and an [import_system] at large, under which a sibling may
    raise while it loads and may act on the namespace of the package. *)

From Stdlib Require Import String Ascii List Bool Arith.
From stdpp Require Import base option strings list gmap.
Import ListNotations.

Local Open Scope string_scope.

(** ** Tokens *)

Module Lexer.

(** Token kinds, named as in Python's [token] module. *)
Inductive token :=
| NAME (id : string)
| STRING (s : string)
| DOT | EQUAL | COMMA | STAR | COLON | AT
| LSQB | RSQB | LPAR | RPAR.

Definition code (c : ascii) : nat := nat_of_ascii c.

Definition between (lo hi n : nat) : bool := Nat.leb lo n && Nat.leb n hi.

Definition is_space (c : ascii) : bool :=
  Nat.eqb (code c) 32 || Nat.eqb (code c) 9.

Definition is_digit (c : ascii) : bool := between 48 57 (code c).

Definition is_name_start (c : ascii) : bool :=
  between 65 90 (code c) || between 97 122 (code c) || Nat.eqb (code c) 95.

Definition is_name_char (c : ascii) : bool := is_name_start c || is_digit c.

(** ['] is 39 and the double quote is 34. *)
Definition is_quote (c : ascii) : bool :=
  Nat.eqb (code c) 39 || Nat.eqb (code c) 34.

(** [#] starts a comment that runs to the end of the line. *)
Definition is_hash (c : ascii) : bool := Nat.eqb (code c) 35.

Definition is_backslash (c : ascii) : bool := Nat.eqb (code c) 92.

Definition operator (c : ascii) : option token :=
  let n := code c in
  if Nat.eqb n 46 then Some DOT
  else if Nat.eqb n 61 then Some EQUAL
  else if Nat.eqb n 44 then Some COMMA
  else if Nat.eqb n 42 then Some STAR
  else if Nat.eqb n 58 then Some COLON
  else if Nat.eqb n 64 then Some AT
  else if Nat.eqb n 91 then Some LSQB
  else if Nat.eqb n 93 then Some RSQB
  else if Nat.eqb n 40 then Some LPAR
  else if Nat.eqb n 41 then Some RPAR
  else None.

Inductive mode :=
| Idle
| InName (acc : list ascii)
| InString (quote : ascii) (acc : list ascii).

Definition text (acc : list ascii) : string := string_of_list_ascii (rev acc).

(** One physical line to its tokens; [None] on what this lexer does not
    cover (numbers, escapes, a string left open, other characters). *)
Fixpoint lex (m : mode) (cs : list ascii) : option (list token) :=
  match cs with
  | [] =>
      match m with
      | Idle => Some []
      | InName acc => Some [NAME (text acc)]
      | InString _ _ => None
      end
  | c :: cs' =>
      let idle (_ : unit) :=
        if is_space c then lex Idle cs'
        else if is_hash c then Some []
        else if is_name_start c then lex (InName [c]) cs'
        else if is_quote c then lex (InString c []) cs'
        else match operator c with
             | Some t => cons t <$> lex Idle cs'
             | None => None
             end in
      match m with
      | Idle => idle ()
      | InName acc =>
          if is_name_char c then lex (InName (c :: acc)) cs'
          else cons (NAME (text acc)) <$> idle ()
      | InString q acc =>
          if Ascii.eqb c q then cons (STRING (text acc)) <$> lex Idle cs'
          else if is_backslash c then None
          else lex (InString q (c :: acc)) cs'
      end
  end.

Definition tokenize (line : string) : option (list token) :=
  lex Idle (list_ascii_of_string line).

Definition indented (line : string) : bool :=
  match list_ascii_of_string line with
  | c :: _ => is_space c
  | [] => false
  end.

End Lexer.

(** ** Abstract syntax *)

Module Ast.

Inductive expr :=
| Constant (s : string)
| Name (id : string)
| List (elts : list expr).

(** [import name as asname]; the name [*] stands for a wildcard. *)
Record alias := Alias { name : string; asname : option string }.

(** The simple statements: an expression statement, an assignment to one
    name, and the two import forms. *)
Inductive stmt :=
| Expr (value : expr)
| Assign (target : string) (value : expr)
| Import (module : list string) (asname : option string)
| ImportFrom (level : nat) (module : list string) (names : list alias).

(** What one physical line is. *)
Inductive line :=
| Blank
| Simple (s : stmt)
| Header (keyword : string)
| Indented.

End Ast.

(** ** Parser *)

Module Parser.
Import Lexer Ast.

Definition compound_keywords : list string :=
  ["def"; "class"; "if"; "elif"; "else"; "for"; "while"; "with"; "try";
   "except"; "finally"; "async"; "match"].

Definition is_compound (kw : string) : bool :=
  existsb (String.eqb kw) compound_keywords.

Definition parse_atom (t : token) : option expr :=
  match t with
  | NAME x => Some (Name x)
  | STRING s => Some (Constant s)
  | _ => None
  end.

(** The elements of a list display, after its opening bracket. *)
Fixpoint parse_elts (ts : list token) : option (list expr) :=
  match ts with
  | [RSQB] => Some []
  | [t; RSQB] => e ← parse_atom t; Some [e]
  | t :: COMMA :: ts' => e ← parse_atom t; cons e <$> parse_elts ts'
  | _ => None
  end.

Definition parse_expr (ts : list token) : option expr :=
  match ts with
  | [t] => parse_atom t
  | LSQB :: ts' => List <$> parse_elts ts'
  | _ => None
  end.

(** The leading dots of a relative import. *)
Fixpoint parse_dots (ts : list token) : nat * list token :=
  match ts with
  | DOT :: ts' => let '(n, r) := parse_dots ts' in (S n, r)
  | _ => (0, ts)
  end.

Fixpoint parse_dotted (ts : list token) : list string * list token :=
  match ts with
  | NAME x :: ts' =>
      if String.eqb x "import" then ([], ts)
      else match ts' with
           | DOT :: ts'' => let '(xs, r) := parse_dotted ts'' in (x :: xs, r)
           | _ => ([x], ts')
           end
  | _ => ([], ts)
  end.

Fixpoint parse_aliases (ts : list token) : option (list alias) :=
  match ts with
  | [NAME n] => Some [Alias n None]
  | [NAME n; NAME kw; NAME a] =>
      if String.eqb kw "as" then Some [Alias n (Some a)] else None
  | NAME n :: COMMA :: ts' => cons (Alias n None) <$> parse_aliases ts'
  | NAME n :: NAME kw :: NAME a :: COMMA :: ts' =>
      if String.eqb kw "as" then cons (Alias n (Some a)) <$> parse_aliases ts'
      else None
  | _ => None
  end.

Definition parse_import_names (ts : list token) : option (list alias) :=
  match ts with
  | [STAR] => Some [Alias "*" None]
  | _ => parse_aliases ts
  end.

Definition parse_import_from (ts : list token) : option stmt :=
  let '(level, r) := parse_dots ts in
  let '(module, r') := parse_dotted r in
  match r' with
  | NAME kw :: names =>
      if String.eqb kw "import"
      then ImportFrom level module <$> parse_import_names names
      else None
  | _ => None
  end.

Definition parse_import (ts : list token) : option stmt :=
  match parse_dotted ts with
  | ([], _) => None
  | (module, []) => Some (Import module None)
  | (module, [NAME kw; NAME a]) =>
      if String.eqb kw "as" then Some (Import module (Some a)) else None
  | _ => None
  end.

Definition parse_tokens (ts : list token) : option line :=
  match ts with
  | [] => Some Blank
  | AT :: _ => Some (Header "@")
  | NAME kw :: rest =>
      if String.eqb kw "from" then Simple <$> parse_import_from rest
      else if String.eqb kw "import" then Simple <$> parse_import rest
      else if is_compound kw then Some (Header kw)
      else match rest with
           | EQUAL :: r => Simple ∘ Assign kw <$> parse_expr r
           | _ => Simple ∘ Expr <$> parse_expr ts
           end
  | _ => Simple ∘ Expr <$> parse_expr ts
  end.

(** A line that starts with white space and is not blank or a comment
    belongs to a block or continues a statement. *)
Definition parse_line (l : string) : option line :=
  ts ← tokenize l;
  match ts with
  | [] => Some Blank
  | _ => if indented l then Some Indented else parse_tokens ts
  end.

Definition parse_lines (ls : list string) : option (list line) :=
  mapM parse_line ls.

Definition statements (ls : list line) : list stmt :=
  omap (λ l, match l with Simple s => Some s | _ => None end) ls.

End Parser.

(** ** The source text *)

Import Lexer Ast Parser.

(** Lines 314-319 of [__init__.py], one string per line. *)
Definition source_tail : list string :=
  [ EmptyString;
    "from .decorators import data_loader";
    "from .lightning import LightningModule";
    EmptyString;
    "__all__ = ['LightningModule', 'data_loader']";
    "# __call__ = __all__" ].


(** ** Values, exceptions and the import system *)

Module Runtime.

Inductive value :=
| VNone
| VStr (s : string)
| VList (vs : list value)
| VModule (name : list string)
| VClass (qualname : string)
| VFunction (qualname : string).

(** What a module body can do to the world outside the interpreter. *)
Inductive event :=
| EvOpen (path : string)
| EvConnect (address : string)
| EvGetenv (variable : string)
| EvArgv.

Inductive exn :=
| NameError (id : string)
| ImportError (msg : string)
| ModuleNotFoundError (module : list string)
| AttributeError (attr : string)
| TypeError (msg : string).

Inductive result (A : Type) :=
| Ok (a : A)
| Raise (e : exn).
Arguments Ok {A} a.
Arguments Raise {A} e.

#[global] Instance result_ret : MRet result := λ A a, Ok a.
#[global] Instance result_bind : MBind result := λ A B f r,
  match r with Ok a => f a | Raise e => Raise e end.
#[global] Instance result_fmap : FMap result := λ A B f r,
  match r with Ok a => Ok (f a) | Raise e => Raise e end.

Notation namespace := (gmap string value).

(** The module's global namespace and the events emitted so far. *)
Record state := State { globals : namespace; events : list event }.

(** The import system seen from the importing module: the namespace of a
    module given by its qualified name, with the events its body emits
    while it loads, or nothing when no such module is found. *)
Definition loader : Type := list string → option (namespace * list event).

(** [__name__] and [__package__], split at the dots. *)
Record module_info := ModuleInfo {
  mod_name : list string;
  mod_package : list string }.

End Runtime.

(** ** Execution of statements *)

Module Exec.
Import Ast Runtime.

Fixpoint eval (g : namespace) (e : expr) : result value :=
  match e with
  | Constant s => Ok (VStr s)
  | Name id =>
      match g !! id with
      | Some v => Ok v
      | None => Raise (NameError id)
      end
  | List elts =>
      VList <$>
        (fix go (es : list expr) : result (list value) :=
           match es with
           | [] => Ok []
           | e' :: es' => v ← eval g e'; vs ← go es'; Ok (v :: vs)
           end) elts
  end.

(** [level] dots before the module name: level 1 is the current package,
    each further dot one package up. *)
Definition resolve_name (me : module_info) (level : nat) (module : list string)
  : result (list string) :=
  match level with
  | 0 => Ok module
  | S up =>
      let pkg := mod_package me in
      if decide (pkg = []) then
        Raise (ImportError "attempted relative import with no known parent package")
      else if decide (up < length pkg) then
        Ok (app (take (length pkg - up) pkg) module)
      else
        Raise (ImportError "attempted relative import beyond top-level package")
  end.

(** After a submodule is loaded the import system sets it as an attribute
    of its parent package; when the parent is the module being executed,
    that is a binding in its own namespace. *)
Definition bind_submodule (me : module_info) (absname : list string)
    (g : namespace) : namespace :=
  match last absname with
  | Some child =>
      if decide (removelast absname = mod_name me)
      then <[child := VModule absname]> g
      else g
  | None => g
  end.

Definition public (n : string) : bool :=
  match n with
  | String c _ => negb (Ascii.eqb c "_")
  | EmptyString => true
  end.

(** The names a wildcard import takes from the namespace [ns] of a module:
    those listed in [__all__] when it is defined, and otherwise all that do
    not start with an underscore. *)
Fixpoint star_names (ns : namespace) (vs : list value) : result namespace :=
  match vs with
  | [] => Ok ∅
  | VStr n :: vs' =>
      match ns !! n with
      | Some v => m ← star_names ns vs'; Ok (<[n := v]> m)
      | None => Raise (AttributeError n)
      end
  | _ :: _ => Raise (TypeError "Item in __all__ must be str")
  end.

Definition import_star (ns : namespace) : result namespace :=
  match ns !! "__all__" with
  | Some (VList vs) => star_names ns vs
  | Some _ => Raise (TypeError "__all__ must be a sequence")
  | None => Ok (filter (λ kv, public kv.1 = true) ns)
  end.

(** [from m import n]: the attribute [n] of the loaded module, or
    ImportError.  (When the loaded module is itself a package CPython then
    tries [m.n] as a submodule; the modules imported here are plain
    modules and this second attempt is left out.) *)
Definition import_name (ns : namespace) (n : string) : result value :=
  match ns !! n with
  | Some v => Ok v
  | None => Raise (ImportError ("cannot import name " +:+ n))
  end.

Definition bound_name (a : alias) : string := default (name a) (asname a).

Definition bind_alias (ns : namespace) (a : alias) (g : namespace)
  : result namespace :=
  if String.eqb (name a) "*" then
    m ← import_star ns; Ok (m ∪ g)
  else
    v ← import_name ns (name a); Ok (<[bound_name a := v]> g).

Fixpoint bind_aliases (ns : namespace) (names : list alias) (g : namespace)
  : result namespace :=
  match names with
  | [] => Ok g
  | a :: names' => g' ← bind_alias ns a g; bind_aliases ns names' g'
  end.

Definition exec_stmt (ld : loader) (me : module_info) (s : stmt) (st : state)
  : result state :=
  match s with
  | Expr e => _ ← eval (globals st) e; Ok st
  | Assign x e =>
      v ← eval (globals st) e;
      Ok (State (<[x := v]> (globals st)) (events st))
  | Import module asname =>
      match ld module with
      | None => Raise (ModuleNotFoundError module)
      | Some (_, evs) =>
          let g := bind_submodule me module (globals st) in
          let g' :=
            match asname, module with
            | Some a, _ => <[a := VModule module]> g
            | None, top :: _ => <[top := VModule [top]]> g
            | None, [] => g
            end in
          Ok (State g' (app (events st) evs))
      end
  | ImportFrom level module names =>
      absname ← resolve_name me level module;
      match ld absname with
      | None => Raise (ModuleNotFoundError absname)
      | Some (ns, evs) =>
          g ← bind_aliases ns names (bind_submodule me absname (globals st));
          Ok (State g (app (events st) evs))
      end
  end.

Fixpoint exec_stmts (ld : loader) (me : module_info) (ss : list stmt)
    (st : state) : result state :=
  match ss with
  | [] => Ok st
  | s :: ss' => st' ← exec_stmt ld me s st; exec_stmts ld me ss' st'
  end.

(** A string literal as the first statement is the module's documentation
    string and is stored under [__doc__]. *)
Definition exec_module (ld : loader) (me : module_info) (body : list stmt)
    (st : state) : result state :=
  match body with
  | Expr (Constant d) :: rest =>
      exec_stmts ld me rest (State (<["__doc__" := VStr d]> (globals st)) (events st))
  | _ => exec_stmts ld me body st
  end.

End Exec.

(** ** The module *)

Import Runtime Exec.

(** [src/pytorch_lightning/core/__init__.py] is the package
    [pytorch_lightning.core]. *)
Definition core : module_info :=
  {| mod_name := ["pytorch_lightning"; "core"];
     mod_package := ["pytorch_lightning"; "core"] |}.

Definition module_lines : list line := default [] (parse_lines source_tail).

(** The statements of the file: the documentation string [doc] of lines
    1-313, then what lines 314-319 parse to. *)
Definition module_body (doc : string) : list stmt :=
  Expr (Constant doc) :: statements module_lines.

Definition import_core (ld : loader) (doc : string) (st : state) : result state :=
  exec_module ld core (module_body doc) st.

(** The namespace of the module before its body runs. *)
Definition fresh_module : state :=
  {| globals := {[ "__name__" := VStr "pytorch_lightning.core";
                   "__package__" := VStr "pytorch_lightning.core";
                   "__doc__" := VNone ]};
     events := [] |}.

Definition decorators_name : list string := ["pytorch_lightning"; "core"; "decorators"].
Definition lightning_name : list string := ["pytorch_lightning"; "core"; "lightning"].

(** Modelled from the spec: the sibling submodules [.lightning] and
    [.decorators] are not among the source files.  The spec says of them
    that the package "exposes a base class that users subclass to structure
    model code, plus a decorator utility": [.lightning] defines the class
    [LightningModule], [.decorators] the function [data_loader]. *)
Definition siblings_spec : loader := λ m,
  if decide (m = decorators_name) then
    Some ({[ "data_loader" := VFunction "pytorch_lightning.core.decorators.data_loader" ]}, [])
  else if decide (m = lightning_name) then
    Some ({[ "LightningModule" := VClass "pytorch_lightning.core.lightning.LightningModule" ]}, [])
  else None.

(** The documentation string enters every statement as a variable [doc];
    where a concrete one is needed, the first line of the file's stands
    for it. *)
Definition first_line : string :=
  "A LightningModule organizes your PyTorch code into the following sections:".


(** ** Observations on a module namespace *)

Definition str_items (vs : list value) : list string :=
  omap (λ v, match v with VStr n => Some n | _ => None end) vs.

(** The names listed in the module's [__all__]. *)
Definition module_all (g : namespace) : list string :=
  match g !! "__all__" with
  | Some (VList vs) => str_items vs
  | _ => []
  end.

Definition is_import (s : stmt) : bool :=
  match s with
  | Import _ _ | ImportFrom _ _ _ => true
  | _ => false
  end.

(** The names a statement binds in the namespace it runs in (a submodule
    name bound by the import system apart). *)
Definition binds (s : stmt) : list string :=
  match s with
  | Expr _ => []
  | Assign x _ => [x]
  | Import module asname =>
      match asname with
      | Some a => [a]
      | None => take 1 module
      end
  | ImportFrom _ _ names => bound_name <$> names
  end.

Definition binding_stmts (n : string) (body : list stmt) : list stmt :=
  filter (λ s, n ∈ binds s) body.

Definition imported_by (body : list stmt) (n : string) : bool :=
  existsb (λ s, is_import s && bool_decide (n ∈ binds s)) body.

(** The namespace [g] after the module body has run, [vd] and [vl] being
    what the two siblings hold under the imported names. *)
Definition bindings_after (doc : string) (vd vl : value) (g : namespace)
  : namespace :=
  <["__all__" := VList [VStr "LightningModule"; VStr "data_loader"]]>
    (<["LightningModule" := vl]>
      (<["lightning" := VModule lightning_name]>
        (<["data_loader" := vd]>
          (<["decorators" := VModule decorators_name]>
            (<["__doc__" := VStr doc]> g))))).

(** The import changes the namespace at [names] only. *)
Definition binds_only (names : list string) : Prop :=
  ∀ ld doc st0 st, import_core ld doc st0 = Ok st →
    ∀ n, n ∉ names → globals st !! n = globals st0 !! n.

(** ** Clients of the module *)

(** A script run as [__main__]: it is in no package. *)
Definition main_module : module_info :=
  {| mod_name := ["__main__"]; mod_package := [] |}.

(** The import system of a client once the package is loaded with the
    namespace [ns]: the package is found, with no further event, and every
    other module is looked up as before. *)
Definition with_core (ld : loader) (ns : namespace) : loader := λ m,
  if decide (m = mod_name core) then Some (ns, []) else ld m.

(** The statement [from pytorch_lightning.core import *] of a client. *)
Definition wildcard_import : stmt :=
  ImportFrom 0 ["pytorch_lightning"; "core"] [Alias "*" None].

(** An import system that finds no module at all. *)
Definition no_modules : loader := λ _, None.

(** ** The import system at large *)

(** What the import system does, in one run, for an import statement that
    names the module [m], up to the binding of the imported names:

    - [attribute n] is what [from m import n] finds under [n], be it an
      attribute of the module, the answer of a module-level [__getattr__]
      or a submodule, or the exception that the lookup raises;
    - [public_names] is what a wildcard import takes from the module;
    - [load_events] are the events emitted on the way, by the body of the
      module when this import loads it and by all it imports in turn;
    - [on_importer] is what becomes of the importing module's namespace on
      the way: a submodule that is loaded, by this import or by a module
      loaded through it, is set on its parent package, and the code of a
      module can reach the namespace of any other.

    A module that is not found, or whose body raises, gives the exception
    in place of all this. *)
Record loaded := Loaded {
  attribute : string → result value;
  public_names : result namespace;
  load_events : list event;
  on_importer : namespace → namespace }.

Definition import_system : Type := list string → result loaded.

(** [exec] gives the namespace a reference to the builtins, [b], under
    [__builtins__] when it has none. *)
Definition with_builtins (b : value) (g : namespace) : namespace :=
  match g !! "__builtins__" with
  | Some _ => g
  | None => <["__builtins__" := b]> g
  end.

Definition take_alias (l : loaded) (a : alias) (g : namespace) : result namespace :=
  if String.eqb (name a) "*" then
    m ← public_names l; Ok (m ∪ g)
  else
    v ← attribute l (name a); Ok (<[bound_name a := v]> g).

Fixpoint take_aliases (l : loaded) (names : list alias) (g : namespace)
  : result namespace :=
  match names with
  | [] => Ok g
  | a :: names' => g' ← take_alias l a g; take_aliases l names' g'
  end.

(** The statements as [exec_stmt] runs them, with the import system at
    large in the place of a [loader]. *)
Definition run_stmt (isys : import_system) (me : module_info) (s : stmt)
    (st : state) : result state :=
  match s with
  | Expr e => _ ← eval (globals st) e; Ok st
  | Assign x e =>
      v ← eval (globals st) e;
      Ok (State (<[x := v]> (globals st)) (events st))
  | Import module asname =>
      l ← isys module;
      let g := on_importer l (globals st) in
      let g' :=
        match asname, module with
        | Some a, _ => <[a := VModule module]> g
        | None, top :: _ => <[top := VModule [top]]> g
        | None, [] => g
        end in
      Ok (State g' (app (events st) (load_events l)))
  | ImportFrom level module names =>
      absname ← resolve_name me level module;
      l ← isys absname;
      g ← take_aliases l names (on_importer l (globals st));
      Ok (State g (app (events st) (load_events l)))
  end.

Fixpoint run_stmts (isys : import_system) (me : module_info) (ss : list stmt)
    (st : state) : result state :=
  match ss with
  | [] => Ok st
  | s :: ss' => st' ← run_stmt isys me s st; run_stmts isys me ss' st'
  end.

(** The body of a module run by [exec] in the module's namespace. *)
Definition run_module (isys : import_system) (b : value) (me : module_info)
    (body : list stmt) (st : state) : result state :=
  let g := with_builtins b (globals st) in
  match body with
  | Expr (Constant d) :: rest =>
      run_stmts isys me rest (State (<["__doc__" := VStr d]> g) (events st))
  | _ => run_stmts isys me body (State g (events st))
  end.

Definition import_package (isys : import_system) (b : value) (doc : string)
    (st : state) : result state :=
  run_module isys b core (module_body doc) st.

(** A [loader] is the import system of a run in which every module that is
    found is loaded by the import at hand, loads without an exception, has
    no attribute but the names of its namespace and sets nothing but
    itself on its parent package. *)
Definition of_loader (ld : loader) (me : module_info) : import_system := λ m,
  match ld m with
  | None => Raise (ModuleNotFoundError m)
  | Some (ns, evs) =>
      Ok {| attribute := import_name ns;
            public_names := import_star ns;
            load_events := evs;
            on_importer := bind_submodule me m |}
  end.

(** The namespace [g] after the body has run, [ld] and [ll] being what the
    import system does for the two siblings and [vd], [vl] what it finds
    under the imported names. *)
Definition package_namespace (doc : string) (b : value) (ld ll : loaded)
    (vd vl : value) (g : namespace) : namespace :=
  <["__all__" := VList [VStr "LightningModule"; VStr "data_loader"]]>
    (<["LightningModule" := vl]>
      (on_importer ll
        (<["data_loader" := vd]>
          (on_importer ld
            (<["__doc__" := VStr doc]> (with_builtins b g)))))).

(** A run in which [.decorators] is loaded already, so that the import
    sets nothing on the package, and [.lightning] is loaded by the import,
    reads an environment variable and imports a further submodule of the
    package, [hooks]. *)
Definition lightning_loads_hooks : import_system := λ m,
  if decide (m = decorators_name) then
    Ok {| attribute := import_name
            {[ "data_loader" := VFunction "pytorch_lightning.core.decorators.data_loader" ]};
          public_names := import_star
            {[ "data_loader" := VFunction "pytorch_lightning.core.decorators.data_loader" ]};
          load_events := [];
          on_importer := λ g, g |}
  else if decide (m = lightning_name) then
    Ok {| attribute := import_name
            {[ "LightningModule" := VClass "pytorch_lightning.core.lightning.LightningModule" ]};
          public_names := import_star
            {[ "LightningModule" := VClass "pytorch_lightning.core.lightning.LightningModule" ]};
          load_events := [EvGetenv "PATH"];
          on_importer := λ g,
            <["lightning" := VModule lightning_name]>
              (<["hooks" := VModule ["pytorch_lightning"; "core"; "hooks"]]> g) |}
  else Raise (ModuleNotFoundError m).

(** An import system in which [.decorators] is found and raises while it
    loads. *)
Definition decorators_raises : import_system := λ m,
  if decide (m = decorators_name) then Raise (ModuleNotFoundError ["torch"])
  else of_loader siblings_spec core m.

(** ** The parsed file *)

Lemma source_tail_parses :
  parse_lines source_tail =
    Some [ Blank;
           Simple (ImportFrom 1 ["decorators"] [Alias "data_loader" None]);
           Simple (ImportFrom 1 ["lightning"] [Alias "LightningModule" None]);
           Blank;
           Simple (Assign "__all__"
                     (List [Constant "LightningModule"; Constant "data_loader"]));
           Blank ].
Proof. vm_compute. reflexivity. Qed.

Lemma module_body_eq doc :
  module_body doc =
    [ Expr (Constant doc);
      ImportFrom 1 ["decorators"] [Alias "data_loader" None];
      ImportFrom 1 ["lightning"] [Alias "LightningModule" None];
      Assign "__all__" (List [Constant "LightningModule"; Constant "data_loader"]) ].
Proof. reflexivity. Qed.

(** ** Running the module against any import system *)

Lemma resolve_decorators : resolve_name core 1 ["decorators"] = Ok decorators_name.
Proof. reflexivity. Qed.

Lemma resolve_lightning : resolve_name core 1 ["lightning"] = Ok lightning_name.
Proof. reflexivity. Qed.

Lemma bind_submodule_decorators g :
  bind_submodule core decorators_name g = <["decorators" := VModule decorators_name]> g.
Proof. reflexivity. Qed.

Lemma bind_submodule_lightning g :
  bind_submodule core lightning_name g = <["lightning" := VModule lightning_name]> g.
Proof. reflexivity. Qed.

Lemma exec_import_from_one ld me level module n st absname ns evs v :
  resolve_name me level module = Ok absname →
  ld absname = Some (ns, evs) →
  String.eqb n "*" = false →
  ns !! n = Some v →
  exec_stmt ld me (ImportFrom level module [Alias n None]) st =
    Ok (State (<[n := v]> (bind_submodule me absname (globals st)))
              (app (events st) evs)).
Proof.
  intros Hres Hld Hstar Hn. unfold exec_stmt. rewrite Hres. cbn [mbind result_bind].
  rewrite Hld. unfold bind_aliases, bind_alias. cbn [name]. rewrite Hstar.
  unfold import_name. rewrite Hn. reflexivity.
Qed.

Lemma exec_import_from_ok_inv ld me level module n st st' :
  String.eqb n "*" = false →
  exec_stmt ld me (ImportFrom level module [Alias n None]) st = Ok st' →
  ∃ absname ns evs v,
    resolve_name me level module = Ok absname ∧
    ld absname = Some (ns, evs) ∧
    ns !! n = Some v ∧
    st' = State (<[n := v]> (bind_submodule me absname (globals st)))
                (app (events st) evs).
Proof.
  intros Hstar. unfold exec_stmt.
  destruct (resolve_name me level module) as [absname|e] eqn:Hres; [|discriminate].
  cbn [mbind result_bind].
  destruct (ld absname) as [[ns evs]|] eqn:Hld; [|discriminate].
  unfold bind_aliases, bind_alias. cbn [name]. rewrite Hstar.
  unfold import_name.
  destruct (ns !! n) as [v|] eqn:Hn; [|discriminate].
  intros [= <-]. exists absname, ns, evs, v. done.
Qed.

(** The module loads when the two siblings load and hold the imported names. *)
Lemma import_core_ok ld doc st0 nsd evd vd nsl evl vl :
  ld decorators_name = Some (nsd, evd) →
  nsd !! "data_loader" = Some vd →
  ld lightning_name = Some (nsl, evl) →
  nsl !! "LightningModule" = Some vl →
  import_core ld doc st0 =
    Ok (State (bindings_after doc vd vl (globals st0))
              (app (app (events st0) evd) evl)).
Proof.
  intros Hd Hvd Hl Hvl. unfold import_core. rewrite module_body_eq.
  unfold exec_module. cbn [exec_stmts].
  rewrite (exec_import_from_one ld core 1 ["decorators"] "data_loader" _ _ _ _ _
             resolve_decorators Hd eq_refl Hvd).
  cbn [mbind result_bind].
  rewrite (exec_import_from_one ld core 1 ["lightning"] "LightningModule" _ _ _ _ _
             resolve_lightning Hl eq_refl Hvl).
  cbn [mbind result_bind]. reflexivity.
Qed.

(** And only then. *)
Lemma import_core_ok_inv ld doc st0 st :
  import_core ld doc st0 = Ok st →
  ∃ nsd evd vd nsl evl vl,
    ld decorators_name = Some (nsd, evd) ∧
    nsd !! "data_loader" = Some vd ∧
    ld lightning_name = Some (nsl, evl) ∧
    nsl !! "LightningModule" = Some vl ∧
    st = State (bindings_after doc vd vl (globals st0))
               (app (app (events st0) evd) evl).
Proof.
  unfold import_core. rewrite module_body_eq. unfold exec_module. cbn [exec_stmts].
  destruct (exec_stmt ld core (ImportFrom 1 ["decorators"] _) _) as [st1|e] eqn:H1;
    [|discriminate].
  cbn [mbind result_bind].
  destruct (exec_stmt ld core (ImportFrom 1 ["lightning"] _) _) as [st2|e] eqn:H2;
    [|discriminate].
  cbn [mbind result_bind].
  apply exec_import_from_ok_inv in H1 as (a1 & nsd & evd & vd & R1 & L1 & N1 & ->); [|done].
  apply exec_import_from_ok_inv in H2 as (a2 & nsl & evl & vl & R2 & L2 & N2 & ->); [|done].
  rewrite resolve_decorators in R1. injection R1 as <-.
  rewrite resolve_lightning in R2. injection R2 as <-.
  intros [= <-]. exists nsd, evd, vd, nsl, evl, vl. done.
Qed.

(** ** Lookups in the namespace after the import *)

Section Bindings.
Context (doc : string) (vd vl : value) (g : namespace).

Lemma after_all :
  bindings_after doc vd vl g !! "__all__" =
    Some (VList [VStr "LightningModule"; VStr "data_loader"]).
Proof. unfold bindings_after. by rewrite lookup_insert_eq. Qed.

Lemma after_LightningModule :
  bindings_after doc vd vl g !! "LightningModule" = Some vl.
Proof.
  unfold bindings_after.
  rewrite lookup_insert_ne by done. by rewrite lookup_insert_eq.
Qed.

Lemma after_data_loader :
  bindings_after doc vd vl g !! "data_loader" = Some vd.
Proof.
  unfold bindings_after.
  do 3 (rewrite lookup_insert_ne by done). by rewrite lookup_insert_eq.
Qed.

Lemma after_doc : bindings_after doc vd vl g !! "__doc__" = Some (VStr doc).
Proof.
  unfold bindings_after.
  do 5 (rewrite lookup_insert_ne by done). by rewrite lookup_insert_eq.
Qed.

(** Every other name is left as it was. *)
Lemma after_frame n :
  n ∉ ["__doc__"; "decorators"; "data_loader"; "lightning";
       "LightningModule"; "__all__"] →
  bindings_after doc vd vl g !! n = g !! n.
Proof.
  intros Hn. unfold bindings_after.
  repeat (rewrite lookup_insert_ne; [|intros <-; apply Hn; set_solver]).
  reflexivity.
Qed.

Lemma after_module_all :
  module_all (bindings_after doc vd vl g) = ["LightningModule"; "data_loader"].
Proof. unfold module_all. by rewrite after_all. Qed.
End Bindings.


(** ** Wildcard import of the module *)

Lemma import_star_after doc vd vl g :
  import_star (bindings_after doc vd vl g) =
    Ok (<["LightningModule" := vl]> (<["data_loader" := vd]> ∅)).
Proof.
  unfold import_star. rewrite after_all. cbn [star_names].
  rewrite after_LightningModule, after_data_loader. reflexivity.
Qed.

Lemma two_names_dom (vd vl : value) n :
  is_Some ((<["LightningModule" := vl]> (<["data_loader" := vd]> ∅) : namespace) !! n)
  ↔ n = "LightningModule" ∨ n = "data_loader".
Proof.
  rewrite !lookup_insert_is_Some, lookup_empty, is_Some_alt. naive_solver.
Qed.

(** The statement a client writes, run in the client's namespace [g] with
    an import system [ld] that finds the package with namespace [ns]. *)
Lemma client_wildcard_parses :
  parse_line "from pytorch_lightning.core import *" =
    Some (Simple (ImportFrom 0 ["pytorch_lightning"; "core"] [Alias "*" None])).
Proof. vm_compute. reflexivity. Qed.

Lemma client_wildcard_exec (ld : loader) me ns evs m st :
  ld (mod_name core) = Some (ns, evs) →
  removelast (mod_name core) ≠ mod_name me →
  import_star ns = Ok m →
  exec_stmt ld me (ImportFrom 0 ["pytorch_lightning"; "core"] [Alias "*" None]) st =
    Ok (State (m ∪ globals st) (app (events st) evs)).
Proof.
  intros Hld Hme Hm. unfold exec_stmt. cbn [resolve_name mbind result_bind].
  change ["pytorch_lightning"; "core"] with (mod_name core). rewrite Hld.
  unfold bind_submodule. cbn [mod_name core last].
  destruct (decide _) as [E|_]; [by destruct Hme|].
  unfold bind_aliases, bind_alias. cbn [name String.eqb Ascii.eqb Bool.eqb].
  rewrite Hm. reflexivity.
Qed.

(** ** What the model tells apart *)

(** Without the [#] the last line is an assignment, and it binds
    [__call__] to the export list. *)
Example last_line_uncommented :
  parse_line "__call__ = __all__" =
    Some (Simple (Assign "__call__" (Name "__all__"))).
Proof. vm_compute. reflexivity. Qed.

Lemma exec_call_assignment ld me g evs v :
  g !! "__all__" = Some v →
  exec_stmt ld me (Assign "__call__" (Name "__all__")) (State g evs) =
    Ok (State (<["__call__" := v]> g) evs).
Proof. intros H. unfold exec_stmt. cbn [eval globals]. by rewrite H. Qed.

(** A sibling that is not found, or lacks the name, makes the import fail. *)
Lemma import_core_no_decorators ld doc st0 :
  ld decorators_name = None →
  import_core ld doc st0 = Raise (ModuleNotFoundError decorators_name).
Proof.
  intros H. unfold import_core. rewrite module_body_eq.
  unfold exec_module. cbn [exec_stmts exec_stmt].
  rewrite resolve_decorators. cbn [mbind result_bind]. by rewrite H.
Qed.

Lemma import_core_no_data_loader ld doc st0 nsd evd :
  ld decorators_name = Some (nsd, evd) →
  nsd !! "data_loader" = None →
  import_core ld doc st0 = Raise (ImportError "cannot import name data_loader").
Proof.
  intros H Hn. unfold import_core. rewrite module_body_eq.
  unfold exec_module. cbn [exec_stmts exec_stmt].
  rewrite resolve_decorators. cbn [mbind result_bind]. rewrite H.
  unfold bind_aliases, bind_alias, import_name.
  cbn [name String.eqb Ascii.eqb Bool.eqb]. by rewrite Hn.
Qed.

(** Without [__all__] a wildcard import would also take the two submodule
    names, and still no name that starts with an underscore. *)
Lemma import_star_no_all (g : namespace) :
  g !! "__all__" = None →
  import_star g = Ok (filter (λ kv, public kv.1 = true) g).
Proof. intros H. unfold import_star. by rewrite H. Qed.

Lemma wildcard_without_all doc vd vl (g : namespace) :
  ∃ m, import_star (delete "__all__" (bindings_after doc vd vl g)) = Ok m ∧
    m !! "decorators" = Some (VModule decorators_name) ∧
    m !! "lightning" = Some (VModule lightning_name) ∧
    m !! "__doc__" = None.
Proof.
  eexists. split; [apply import_star_no_all, lookup_delete_eq|].
  unfold bindings_after. rewrite delete_insert_eq.
  split; [|split].
  - apply map_lookup_filter_Some. split; [|done].
    rewrite lookup_delete_ne by done.
    do 2 (rewrite lookup_insert_ne by done).
    do 1 (rewrite lookup_insert_ne by done). by rewrite lookup_insert_eq.
  - apply map_lookup_filter_Some. split; [|done].
    rewrite lookup_delete_ne by done.
    rewrite lookup_insert_ne by done. by rewrite lookup_insert_eq.
  - apply map_lookup_filter_None. right. intros v _. by cbn.
Qed.

(** * The claims *)

(** C1. The export list names exactly the two symbols: once the module is
    imported, a name is listed in its [__all__] if and only if it is
    ['LightningModule'] or ['data_loader']. *)
Theorem all_names_exactly_two ld doc st0 st :
  import_core ld doc st0 = Ok st →
  ∀ n, n ∈ module_all (globals st) ↔ n = "LightningModule" ∨ n = "data_loader".
Proof.
  intros H n.
  apply import_core_ok_inv in H as (nsd & evd & vd & nsl & evl & vl & _ & _ & _ & _ & ->).
  cbn [globals]. rewrite after_module_all. set_solver.
Qed.

(** C2. Both exported names are importable: when the two siblings load and
    hold the imported names, the module loads, every name in [__all__] is
    bound by one of the file's import statements, and importing either
    name from the module gives the sibling's object. *)
Theorem exported_names_importable ld doc st0 nsd evd vd nsl evl vl :
  ld decorators_name = Some (nsd, evd) →
  nsd !! "data_loader" = Some vd →
  ld lightning_name = Some (nsl, evl) →
  nsl !! "LightningModule" = Some vl →
  ∃ st, import_core ld doc st0 = Ok st ∧
    Forall (λ n, imported_by (module_body doc) n = true ∧
                 ∃ v, import_name (globals st) n = Ok v)
           (module_all (globals st)) ∧
    import_name (globals st) "LightningModule" = Ok vl ∧
    import_name (globals st) "data_loader" = Ok vd.
Proof.
  intros Hd Hvd Hl Hvl. eexists. split; [by apply (import_core_ok ld doc st0 nsd evd vd nsl evl vl)|].
  cbn [globals]. rewrite after_module_all. unfold import_name.
  rewrite after_LightningModule, after_data_loader.
  split; [|done]. rewrite !Forall_cons.
  rewrite after_LightningModule, after_data_loader.
  split; [split; [reflexivity|by exists vl]|].
  split; [split; [reflexivity|by exists vd]|]. constructor.
Qed.

(** C3. Besides the documentation string and the [__all__] assignment the
    body is exactly two import statements; no line of the file opens a
    function, a class or any other compound statement, and none is
    indented. *)
Theorem body_is_two_imports doc :
  parse_lines source_tail = Some module_lines ∧
  Forall (λ l, l = Blank ∨ ∃ s, l = Simple s) module_lines ∧
  (∃ i1 i2 e,
     module_body doc = [Expr (Constant doc); i1; i2; Assign "__all__" e] ∧
     is_import i1 = true ∧ is_import i2 = true) ∧
  length (filter (λ s, is_import s = true) (module_body doc)) = 2.
Proof.
  split; [reflexivity|]. split.
  - unfold module_lines. rewrite source_tail_parses. cbn [default].
    repeat (apply Forall_cons; split;
            [first [by left | right; by eexists]|]).
    constructor.
  - split; [|reflexivity]. rewrite module_body_eq. by do 3 eexists.
Qed.

(** C7. The export list is well formed: after the import [__all__] is a
    list without duplicates, and each entry is a string naming an
    attribute of the module. *)
Theorem all_well_formed ld doc st0 st :
  import_core ld doc st0 = Ok st →
  ∃ vs, globals st !! "__all__" = Some (VList vs) ∧
    NoDup vs ∧
    Forall (λ v, ∃ n, v = VStr n ∧ is_Some (globals st !! n)) vs.
Proof.
  intros H.
  apply import_core_ok_inv in H as (nsd & evd & vd & nsl & evl & vl & _ & _ & _ & _ & ->).
  cbn [globals]. eexists. split; [apply after_all|]. split.
  - apply NoDup_cons. split; [set_solver|]. apply NoDup_singleton.
  - repeat constructor.
    + exists "LightningModule". by rewrite after_LightningModule.
    + exists "data_loader". by rewrite after_data_loader.
Qed.

(** C4, counterexample. With the siblings of the spec and a fresh module
    namespace the import binds [__all__], which is neither of the two
    re-exported names nor the documentation string. *)
Lemma import_binds_more_than_reexports_and_doc :
  ¬ binds_only ["LightningModule"; "data_loader"; "__doc__"].
Proof.
  intros H.
  assert (Hrun : ∃ st, import_core siblings_spec first_line fresh_module = Ok st ∧
                       is_Some (globals st !! "__all__")).
  { eexists. split; [vm_compute; reflexivity|]. vm_compute. by eexists. }
  destruct Hrun as (st & Hst & Hall).
  specialize (H _ _ _ _ Hst "__all__").
  rewrite H in Hall by set_solver.
  vm_compute in Hall. by destruct Hall.
Qed.

(** C5. The two names are re-exports: the only statement of the file that
    binds [LightningModule] is the import from [.lightning], the only one
    that binds [data_loader] the import from [.decorators]; with the
    siblings of the spec the module holds the very objects of the
    siblings, a class and a function. *)
Theorem reexports_from_siblings doc st0 :
  binding_stmts "LightningModule" (module_body doc) =
    [ImportFrom 1 ["lightning"] [Alias "LightningModule" None]] ∧
  binding_stmts "data_loader" (module_body doc) =
    [ImportFrom 1 ["decorators"] [Alias "data_loader" None]] ∧
  resolve_name core 1 ["lightning"] = Ok lightning_name ∧
  resolve_name core 1 ["decorators"] = Ok decorators_name ∧
  ∃ st nsl evl nsd evd,
    import_core siblings_spec doc st0 = Ok st ∧
    siblings_spec lightning_name = Some (nsl, evl) ∧
    siblings_spec decorators_name = Some (nsd, evd) ∧
    globals st !! "LightningModule" = nsl !! "LightningModule" ∧
    (∃ q, globals st !! "LightningModule" = Some (VClass q)) ∧
    globals st !! "data_loader" = nsd !! "data_loader" ∧
    (∃ q, globals st !! "data_loader" = Some (VFunction q)).
Proof.
  split; [reflexivity|]. split; [reflexivity|].
  split; [reflexivity|]. split; [reflexivity|].
  do 5 eexists.
  split.
  { eapply (import_core_ok siblings_spec doc st0);
      [reflexivity | apply lookup_singleton_eq
      | reflexivity | apply lookup_singleton_eq]. }
  split; [reflexivity|]. split; [reflexivity|].
  cbn [globals]. rewrite after_LightningModule, after_data_loader.
  rewrite !lookup_singleton_eq.
  repeat split; by eexists.
Qed.

(** C6. A wildcard import of the module yields exactly the two names,
    bound to what the module holds under them; the last line of the file
    is a comment, no statement, and the import leaves [__call__] as it
    was. *)
Theorem wildcard_yields_two_names ld doc st0 st :
  import_core ld doc st0 = Ok st →
  ∃ m, import_star (globals st) = Ok m ∧
    (∀ n, is_Some (m !! n) ↔ n = "LightningModule" ∨ n = "data_loader") ∧
    (∀ n, is_Some (m !! n) → m !! n = globals st !! n) ∧
    parse_line "# __call__ = __all__" = Some Blank ∧
    globals st !! "__call__" = globals st0 !! "__call__".
Proof.
  intros H.
  apply import_core_ok_inv in H as (nsd & evd & vd & nsl & evl & vl & _ & _ & _ & _ & ->).
  cbn [globals]. eexists. split; [apply import_star_after|].
  split; [apply two_names_dom|]. split.
  - intros n Hn. apply two_names_dom in Hn as [-> | ->].
    + by rewrite lookup_insert_eq, after_LightningModule.
    + rewrite lookup_insert_ne by done.
      by rewrite lookup_insert_eq, after_data_loader.
  - split; [reflexivity|]. apply after_frame. set_solver.
Qed.

(** ** The theorems at the siblings of the spec *)

Lemma all_names_exactly_two_witness :
  ∃ st, import_core siblings_spec first_line fresh_module = Ok st ∧
    ∀ n, n ∈ module_all (globals st) ↔ n = "LightningModule" ∨ n = "data_loader".
Proof.
  eexists. split; [vm_compute; reflexivity|].
  apply (all_names_exactly_two siblings_spec first_line fresh_module).
  vm_compute. reflexivity.
Defined.

Lemma exported_names_importable_witness :
  ∃ st, import_core siblings_spec first_line fresh_module = Ok st ∧
    Forall (λ n, imported_by (module_body first_line) n = true ∧
                 ∃ v, import_name (globals st) n = Ok v)
           (module_all (globals st)) ∧
    import_name (globals st) "LightningModule" =
      Ok (VClass "pytorch_lightning.core.lightning.LightningModule") ∧
    import_name (globals st) "data_loader" =
      Ok (VFunction "pytorch_lightning.core.decorators.data_loader").
Proof.
  apply (exported_names_importable siblings_spec first_line fresh_module
           {[ "data_loader" := VFunction "pytorch_lightning.core.decorators.data_loader" ]} []
           (VFunction "pytorch_lightning.core.decorators.data_loader")
           {[ "LightningModule" := VClass "pytorch_lightning.core.lightning.LightningModule" ]} []
           (VClass "pytorch_lightning.core.lightning.LightningModule"));
    vm_compute; reflexivity.
Defined.

Lemma wildcard_yields_two_names_witness :
  ∃ st, import_core siblings_spec first_line fresh_module = Ok st ∧
    ∃ m, import_star (globals st) = Ok m ∧
      (∀ n, is_Some (m !! n) ↔ n = "LightningModule" ∨ n = "data_loader") ∧
      (∀ n, is_Some (m !! n) → m !! n = globals st !! n) ∧
      parse_line "# __call__ = __all__" = Some Blank ∧
      globals st !! "__call__" = globals fresh_module !! "__call__".
Proof.
  eexists. split; [vm_compute; reflexivity|].
  apply (wildcard_yields_two_names siblings_spec first_line fresh_module).
  vm_compute. reflexivity.
Defined.

Lemma all_well_formed_witness :
  ∃ st, import_core siblings_spec first_line fresh_module = Ok st ∧
    ∃ vs, globals st !! "__all__" = Some (VList vs) ∧
      NoDup vs ∧
      Forall (λ v, ∃ n, v = VStr n ∧ is_Some (globals st !! n)) vs.
Proof.
  eexists. split; [vm_compute; reflexivity|].
  apply (all_well_formed siblings_spec first_line fresh_module).
  vm_compute. reflexivity.
Defined.

(** * Further properties of the import *)

(** ** Every outcome of the two import statements *)

Lemma exec_import_from_one_cases ld me level module n st absname :
  resolve_name me level module = Ok absname →
  String.eqb n "*" = false →
  exec_stmt ld me (ImportFrom level module [Alias n None]) st =
    match ld absname with
    | None => Raise (ModuleNotFoundError absname)
    | Some (ns, evs) =>
        match ns !! n with
        | None => Raise (ImportError ("cannot import name " +:+ n))
        | Some v =>
            Ok (State (<[n := v]> (bind_submodule me absname (globals st)))
                      (app (events st) evs))
        end
    end.
Proof.
  intros Hres Hstar. unfold exec_stmt. rewrite Hres. cbn [mbind result_bind].
  destruct (ld absname) as [[ns evs]|]; [|reflexivity].
  unfold bind_aliases, bind_alias, import_name. cbn [name]. rewrite Hstar.
  destruct (ns !! n); reflexivity.
Qed.

(** The result of the import for every import system: the first step that
    fails, in the order of the file, decides the exception. *)
Lemma import_core_cases ld doc st0 :
  import_core ld doc st0 =
    match ld decorators_name with
    | None => Raise (ModuleNotFoundError decorators_name)
    | Some (nsd, evd) =>
        match nsd !! "data_loader" with
        | None => Raise (ImportError "cannot import name data_loader")
        | Some vd =>
            match ld lightning_name with
            | None => Raise (ModuleNotFoundError lightning_name)
            | Some (nsl, evl) =>
                match nsl !! "LightningModule" with
                | None => Raise (ImportError "cannot import name LightningModule")
                | Some vl =>
                    Ok (State (bindings_after doc vd vl (globals st0))
                              (app (app (events st0) evd) evl))
                end
            end
        end
    end.
Proof.
  unfold import_core. rewrite module_body_eq. unfold exec_module.
  cbn [exec_stmts].
  rewrite (exec_import_from_one_cases ld core 1 ["decorators"] "data_loader" _ _
             resolve_decorators eq_refl).
  destruct (ld decorators_name) as [[nsd evd]|]; [|reflexivity].
  destruct (nsd !! "data_loader") as [vd|]; [|reflexivity].
  cbn [mbind result_bind].
  rewrite (exec_import_from_one_cases ld core 1 ["lightning"] "LightningModule" _ _
             resolve_lightning eq_refl).
  destruct (ld lightning_name) as [[nsl evl]|]; [|reflexivity].
  destruct (nsl !! "LightningModule") as [vl|]; reflexivity.
Qed.

Lemma after_decorators doc vd vl (g : namespace) :
  bindings_after doc vd vl g !! "decorators" = Some (VModule decorators_name).
Proof.
  unfold bindings_after.
  do 4 (rewrite lookup_insert_ne by done). by rewrite lookup_insert_eq.
Qed.

Lemma after_lightning doc vd vl (g : namespace) :
  bindings_after doc vd vl g !! "lightning" = Some (VModule lightning_name).
Proof.
  unfold bindings_after.
  do 2 (rewrite lookup_insert_ne by done). by rewrite lookup_insert_eq.
Qed.

(** The bindings of a second run are those of the first. *)
Lemma bindings_after_idemp doc vd vl (g : namespace) :
  bindings_after doc vd vl (bindings_after doc vd vl g) = bindings_after doc vd vl g.
Proof.
  apply map_eq. intros n.
  unfold bindings_after at 1. rewrite !lookup_insert.
  repeat case_decide; subst;
    rewrite ?after_all, ?after_LightningModule, ?after_lightning,
            ?after_data_loader, ?after_decorators, ?after_doc; reflexivity.
Qed.

(** Two documentation strings give the same bindings but for [__doc__]. *)
Lemma bindings_after_doc_irrelevant doc1 doc2 vd vl (g : namespace) n :
  n ≠ "__doc__" →
  bindings_after doc2 vd vl g !! n = bindings_after doc1 vd vl g !! n.
Proof.
  intros Hn. unfold bindings_after. rewrite !lookup_insert.
  repeat case_decide; subst; done.
Qed.

(** ** What the import depends on *)

(** X7. The import looks up the two siblings and no other module: import
    systems that agree on [.decorators] and [.lightning] give the same
    result, success or exception. *)
Theorem import_consults_only_siblings ld1 ld2 doc st0 :
  ld1 decorators_name = ld2 decorators_name →
  ld1 lightning_name = ld2 lightning_name →
  import_core ld1 doc st0 = import_core ld2 doc st0.
Proof. intros Hd Hl. by rewrite !import_core_cases, Hd, Hl. Qed.

(** ** What the import leaves in the namespace *)

(** X3. Running the module body again in the namespace it has produced,
    as a reload does, succeeds and leaves that namespace as it is. *)
Theorem reload_keeps_namespace ld doc st0 st1 :
  import_core ld doc st0 = Ok st1 →
  ∃ st2, import_core ld doc st1 = Ok st2 ∧ globals st2 = globals st1.
Proof.
  intros H.
  apply import_core_ok_inv in H
    as (nsd & evd & vd & nsl & evl & vl & Hd & Hvd & Hl & Hvl & ->).
  eexists. split; [by apply (import_core_ok ld doc _ nsd evd vd nsl evl vl)|].
  cbn [globals]. apply bindings_after_idemp.
Qed.

(** X4. The documentation string ends up under [__doc__], whatever was
    there, and it matters for nothing else: with another documentation
    string the import succeeds as well, with the same events and the same
    binding of every other name. *)
Theorem docstring_only_sets_doc ld doc1 doc2 st0 st1 :
  import_core ld doc1 st0 = Ok st1 →
  globals st1 !! "__doc__" = Some (VStr doc1) ∧
  ∃ st2, import_core ld doc2 st0 = Ok st2 ∧
    events st2 = events st1 ∧
    ∀ n, n ≠ "__doc__" → globals st2 !! n = globals st1 !! n.
Proof.
  intros H.
  apply import_core_ok_inv in H
    as (nsd & evd & vd & nsl & evl & vl & Hd & Hvd & Hl & Hvl & ->).
  cbn [globals events]. split; [apply after_doc|].
  eexists. split; [by apply (import_core_ok ld doc2 st0 nsd evd vd nsl evl vl)|].
  cbn [globals events]. split; [reflexivity|].
  intros n Hn. by apply bindings_after_doc_irrelevant.
Qed.

(** X6. A client that runs [from pytorch_lightning.core import *] gets the
    package's [LightningModule] and [data_loader] under these names, in
    place of what it had there, and keeps every other name of its own as
    it was. *)
Theorem client_wildcard_frame ld ld' doc st0 st me c :
  import_core ld doc st0 = Ok st →
  removelast (mod_name core) ≠ mod_name me →
  parse_line "from pytorch_lightning.core import *" = Some (Simple wildcard_import) ∧
  ∃ c', exec_stmt (with_core ld' (globals st)) me wildcard_import c = Ok c' ∧
    globals c' !! "LightningModule" = globals st !! "LightningModule" ∧
    globals c' !! "data_loader" = globals st !! "data_loader" ∧
    (∀ n, n ≠ "LightningModule" → n ≠ "data_loader" →
          globals c' !! n = globals c !! n) ∧
    events c' = events c.
Proof.
  intros H Hme. split; [apply client_wildcard_parses|].
  apply import_core_ok_inv in H
    as (nsd & evd & vd & nsl & evl & vl & _ & _ & _ & _ & ->).
  cbn [globals]. eexists. split.
  { unfold wildcard_import. eapply client_wildcard_exec;
      [|exact Hme|apply import_star_after].
    unfold with_core. by rewrite decide_True. }
  cbn [globals events].
  rewrite after_LightningModule, after_data_loader.
  split; [|split; [|split]].
  - apply lookup_union_Some_l. by rewrite lookup_insert_eq.
  - apply lookup_union_Some_l.
    rewrite lookup_insert_ne by done. by rewrite lookup_insert_eq.
  - intros n H1 H2. apply lookup_union_r.
    by rewrite !lookup_insert_ne, lookup_empty.
  - apply app_nil_r.
Qed.

(** ** The further properties at the siblings of the spec *)

Lemma import_consults_only_siblings_witness :
  import_core siblings_spec first_line fresh_module =
  import_core (with_core siblings_spec ∅) first_line fresh_module.
Proof.
  apply (import_consults_only_siblings siblings_spec (with_core siblings_spec ∅));
    vm_compute; reflexivity.
Defined.

Lemma reload_keeps_namespace_witness :
  ∃ st1, import_core siblings_spec first_line fresh_module = Ok st1 ∧
    ∃ st2, import_core siblings_spec first_line st1 = Ok st2 ∧
      globals st2 = globals st1.
Proof.
  eexists. split; [vm_compute; reflexivity|].
  apply (reload_keeps_namespace siblings_spec first_line fresh_module).
  vm_compute. reflexivity.
Defined.

Lemma docstring_only_sets_doc_witness :
  ∃ st1, import_core siblings_spec first_line fresh_module = Ok st1 ∧
    globals st1 !! "__doc__" = Some (VStr first_line) ∧
    ∃ st2, import_core siblings_spec "Lifecycle" fresh_module = Ok st2 ∧
      events st2 = events st1 ∧
      ∀ n, n ≠ "__doc__" → globals st2 !! n = globals st1 !! n.
Proof.
  eexists. split; [vm_compute; reflexivity|].
  apply (docstring_only_sets_doc siblings_spec first_line "Lifecycle" fresh_module).
  vm_compute. reflexivity.
Defined.

Lemma client_wildcard_frame_witness :
  ∃ st, import_core siblings_spec first_line fresh_module = Ok st ∧
    parse_line "from pytorch_lightning.core import *" = Some (Simple wildcard_import) ∧
    ∃ c', exec_stmt (with_core no_modules (globals st)) main_module
            wildcard_import fresh_module = Ok c' ∧
      globals c' !! "LightningModule" = globals st !! "LightningModule" ∧
      globals c' !! "data_loader" = globals st !! "data_loader" ∧
      (∀ n, n ≠ "LightningModule" → n ≠ "data_loader" →
            globals c' !! n = globals fresh_module !! n) ∧
      events c' = events fresh_module.
Proof.
  eexists. split; [vm_compute; reflexivity|].
  apply (client_wildcard_frame siblings_spec no_modules first_line fresh_module).
  - vm_compute. reflexivity.
  - vm_compute. discriminate.
Defined.

(** * The import under the import system at large *)

(** ** The two accounts of the import system agree *)

Lemma take_aliases_of_namespace ns evs T names (g : namespace) :
  take_aliases {| attribute := import_name ns; public_names := import_star ns;
                  load_events := evs; on_importer := T |} names g =
    bind_aliases ns names g.
Proof.
  revert g. induction names as [|a names IH]; intros g; [reflexivity|].
  cbn [take_aliases bind_aliases]. unfold take_alias, bind_alias.
  cbn [attribute public_names].
  destruct (String.eqb (name a) "*").
  - destruct (import_star ns); cbn [mbind result_bind]; [apply IH|reflexivity].
  - destruct (import_name ns (name a)); cbn [mbind result_bind];
      [apply IH|reflexivity].
Qed.

Lemma run_stmt_of_loader ld me s st :
  run_stmt (of_loader ld me) me s st = exec_stmt ld me s st.
Proof.
  destruct s as [e|x e|module asname|level module names];
    cbn [run_stmt exec_stmt]; try reflexivity.
  - unfold of_loader. destruct (ld module) as [[ns evs]|]; reflexivity.
  - destruct (resolve_name me level module) as [absname|e];
      cbn [mbind result_bind]; [|reflexivity].
    unfold of_loader. destruct (ld absname) as [[ns evs]|];
      cbn [mbind result_bind]; [|reflexivity].
    rewrite take_aliases_of_namespace. reflexivity.
Qed.

Lemma run_stmts_of_loader ld me ss st :
  run_stmts (of_loader ld me) me ss st = exec_stmts ld me ss st.
Proof.
  revert st. induction ss as [|s ss IH]; intros st; [reflexivity|].
  cbn [run_stmts exec_stmts]. rewrite run_stmt_of_loader.
  destruct (exec_stmt ld me s st); cbn [mbind result_bind]; [apply IH|reflexivity].
Qed.

Lemma with_builtins_present b (g : namespace) :
  is_Some (g !! "__builtins__") → with_builtins b g = g.
Proof. intros [v H]. unfold with_builtins. by rewrite H. Qed.

Lemma with_builtins_other b (g : namespace) n :
  n ≠ "__builtins__" → with_builtins b g !! n = g !! n.
Proof.
  intros Hn. unfold with_builtins.
  destruct (g !! "__builtins__"); [reflexivity|]. by rewrite lookup_insert_ne.
Qed.

(** Where the namespace has its [__builtins__] and the import system is a
    [loader], the import is the one of [import_core]. *)
Lemma import_package_of_loader ld b doc st0 :
  is_Some (globals st0 !! "__builtins__") →
  import_package (of_loader ld core) b doc st0 = import_core ld doc st0.
Proof.
  intros Hb. unfold import_package, import_core, run_module, exec_module.
  rewrite (with_builtins_present b _ Hb). rewrite module_body_eq.
  apply run_stmts_of_loader.
Qed.

(** ** Every outcome of the import *)

Lemma run_import_from_one_cases isys me level module n st absname :
  resolve_name me level module = Ok absname →
  String.eqb n "*" = false →
  run_stmt isys me (ImportFrom level module [Alias n None]) st =
    match isys absname with
    | Raise e => Raise e
    | Ok l =>
        match attribute l n with
        | Raise e => Raise e
        | Ok v =>
            Ok (State (<[n := v]> (on_importer l (globals st)))
                      (app (events st) (load_events l)))
        end
    end.
Proof.
  intros Hres Hstar. unfold run_stmt. rewrite Hres. cbn [mbind result_bind].
  destruct (isys absname) as [l|e]; cbn [mbind result_bind]; [|reflexivity].
  unfold take_aliases, take_alias. cbn [name]. rewrite Hstar.
  destruct (attribute l n); reflexivity.
Qed.

Lemma import_package_cases isys b doc st0 :
  import_package isys b doc st0 =
    match isys decorators_name with
    | Raise e => Raise e
    | Ok ld =>
        match attribute ld "data_loader" with
        | Raise e => Raise e
        | Ok vd =>
            match isys lightning_name with
            | Raise e => Raise e
            | Ok ll =>
                match attribute ll "LightningModule" with
                | Raise e => Raise e
                | Ok vl =>
                    Ok (State (package_namespace doc b ld ll vd vl (globals st0))
                              (app (app (events st0) (load_events ld))
                                   (load_events ll)))
                end
            end
        end
    end.
Proof.
  unfold import_package. rewrite module_body_eq. unfold run_module.
  cbn [run_stmts].
  rewrite (run_import_from_one_cases isys core 1 ["decorators"] "data_loader" _ _
             resolve_decorators eq_refl).
  destruct (isys decorators_name) as [ld|]; [|reflexivity].
  destruct (attribute ld "data_loader") as [vd|]; [|reflexivity].
  cbn [mbind result_bind].
  rewrite (run_import_from_one_cases isys core 1 ["lightning"] "LightningModule" _ _
             resolve_lightning eq_refl).
  destruct (isys lightning_name) as [ll|]; [|reflexivity].
  destruct (attribute ll "LightningModule") as [vl|]; reflexivity.
Qed.

Lemma import_package_ok_inv isys b doc st0 st :
  import_package isys b doc st0 = Ok st →
  ∃ ld ll vd vl,
    isys decorators_name = Ok ld ∧ attribute ld "data_loader" = Ok vd ∧
    isys lightning_name = Ok ll ∧ attribute ll "LightningModule" = Ok vl ∧
    st = State (package_namespace doc b ld ll vd vl (globals st0))
               (app (app (events st0) (load_events ld)) (load_events ll)).
Proof.
  rewrite import_package_cases.
  destruct (isys decorators_name) as [ld|] eqn:Hd; [|discriminate].
  destruct (attribute ld "data_loader") as [vd|] eqn:Hvd; [|discriminate].
  destruct (isys lightning_name) as [ll|] eqn:Hl; [|discriminate].
  destruct (attribute ll "LightningModule") as [vl|] eqn:Hvl; [|discriminate].
  intros [= <-]. by exists ld, ll, vd, vl.
Qed.

(** A name that is none of the five and that the import system leaves
    alone keeps its binding. *)
Lemma package_namespace_frame doc b ld ll vd vl (g : namespace) n :
  n ∉ ["__builtins__"; "__doc__"; "data_loader"; "LightningModule"; "__all__"] →
  (∀ g', on_importer ld g' !! n = g' !! n) →
  (∀ g', on_importer ll g' !! n = g' !! n) →
  package_namespace doc b ld ll vd vl g !! n = g !! n.
Proof.
  intros Hn Hd Hl. unfold package_namespace.
  do 2 (rewrite lookup_insert_ne; [|intros <-; apply Hn; set_solver]).
  rewrite Hl. rewrite lookup_insert_ne; [|intros <-; apply Hn; set_solver].
  rewrite Hd. rewrite lookup_insert_ne; [|intros <-; apply Hn; set_solver].
  apply with_builtins_other. intros ->. apply Hn. set_solver.
Qed.

(** Under every import system the import ends with the assignment of the
    export list, and the class is bound just before it. *)
Lemma package_binds_all isys b doc st0 st :
  import_package isys b doc st0 = Ok st →
  globals st !! "__all__" = Some (VList [VStr "LightningModule"; VStr "data_loader"]) ∧
  ∃ ll, isys lightning_name = Ok ll ∧
    Ok <$> (globals st !! "LightningModule") = Some (attribute ll "LightningModule").
Proof.
  intros H.
  apply import_package_ok_inv in H
    as (ld & ll & vd & vl & Hd & Hvd & Hl & Hvl & ->).
  cbn [globals]. unfold package_namespace. split; [by rewrite lookup_insert_eq|].
  exists ll. split; [assumption|].
  rewrite lookup_insert_ne by done. by rewrite lookup_insert_eq, Hvl.
Qed.

(** ** The frame of the import *)

(** C4, amended. The statements of the file bind [__doc__], the two
    re-exported names and also [__all__], in this order, and nothing else:
    the namespace after the import is the one before it with these four
    bindings and with what the import system does in between, [exec]
    giving it its [__builtins__] and the loading of the two siblings
    acting on it; so a name that is none of the five and that the import
    system leaves alone keeps its binding.  The events of the import are
    those of the import system for the two siblings, [.decorators] first:
    the statements of the file emit none.  No line of the file opens a
    compound statement, so there is no entry-point block. *)
Theorem package_import_frame isys b doc st0 st :
  import_package isys b doc st0 = Ok st →
  ∃ ld ll vd vl,
    isys decorators_name = Ok ld ∧ attribute ld "data_loader" = Ok vd ∧
    isys lightning_name = Ok ll ∧ attribute ll "LightningModule" = Ok vl ∧
    globals st =
      <["__all__" := VList [VStr "LightningModule"; VStr "data_loader"]]>
        (<["LightningModule" := vl]>
          (on_importer ll
            (<["data_loader" := vd]>
              (on_importer ld
                (<["__doc__" := VStr doc]>
                  (with_builtins b (globals st0))))))) ∧
    (∀ n, n ∉ ["__builtins__"; "__doc__"; "data_loader";
               "LightningModule"; "__all__"] →
          (∀ g, on_importer ld g !! n = g !! n) →
          (∀ g, on_importer ll g !! n = g !! n) →
          globals st !! n = globals st0 !! n) ∧
    events st = app (app (events st0) (load_events ld)) (load_events ll) ∧
    Forall (λ l, ∀ kw, l ≠ Header kw) module_lines.
Proof.
  intros H.
  apply import_package_ok_inv in H
    as (ld & ll & vd & vl & Hd & Hvd & Hl & Hvl & ->).
  exists ld, ll, vd, vl. cbn [globals events].
  do 4 (split; [assumption|]). split; [reflexivity|].
  split; [intros n Hn H1 H2; by apply package_namespace_frame|].
  split; [reflexivity|].
  unfold module_lines. rewrite source_tail_parses. cbn [default].
  repeat (apply Forall_cons; split; [done|]). constructor.
Qed.

(** ** When the import succeeds, and how it fails *)

(** X1. The package is imported successfully exactly when the import
    system loads both siblings without an exception and finds in each the
    name imported from it: the statements of the file add no condition of
    their own. *)
Theorem package_import_succeeds_iff isys b doc st0 :
  (∃ st, import_package isys b doc st0 = Ok st) ↔
  (∃ ld ll vd vl,
     isys decorators_name = Ok ld ∧ attribute ld "data_loader" = Ok vd ∧
     isys lightning_name = Ok ll ∧ attribute ll "LightningModule" = Ok vl).
Proof.
  split.
  - intros [st H].
    apply import_package_ok_inv in H
      as (ld & ll & vd & vl & Hd & Hvd & Hl & Hvl & _).
    by exists ld, ll, vd, vl.
  - intros (ld & ll & vd & vl & Hd & Hvd & Hl & Hvl).
    rewrite import_package_cases, Hd, Hvd, Hl, Hvl. by eexists.
Qed.

(** X2. An exception of the import is one that the import system raises,
    at the first of these steps that fails: loading [.decorators], looking
    up [data_loader] in it, loading [.lightning], looking up
    [LightningModule] in it.  The statements of the file raise nothing of
    their own. *)
Theorem package_import_raises_in_file_order isys b doc st0 e :
  import_package isys b doc st0 = Raise e →
  isys decorators_name = Raise e ∨
  (∃ ld, isys decorators_name = Ok ld ∧
     (attribute ld "data_loader" = Raise e ∨
      (∃ vd, attribute ld "data_loader" = Ok vd ∧
         (isys lightning_name = Raise e ∨
          (∃ ll, isys lightning_name = Ok ll ∧
             attribute ll "LightningModule" = Raise e))))).
Proof.
  rewrite import_package_cases.
  destruct (isys decorators_name) as [ld|e1] eqn:Hd.
  - intros H. right. exists ld. split; [reflexivity|].
    destruct (attribute ld "data_loader") as [vd|e2] eqn:Hvd.
    + right. exists vd. split; [reflexivity|].
      destruct (isys lightning_name) as [ll|e3] eqn:Hl.
      * right. exists ll. split; [reflexivity|].
        destruct (attribute ll "LightningModule") as [vl|e4] eqn:Hvl;
          [discriminate|by injection H as ->].
      * left. by injection H as ->.
    + left. by injection H as ->.
  - intros H. left. by injection H as ->.
Qed.

(** ** The theorems at two import systems at large *)

Lemma package_import_frame_witness :
  ∃ st, import_package lightning_loads_hooks (VModule ["builtins"])
          first_line fresh_module = Ok st ∧
  ∃ ld ll vd vl,
    lightning_loads_hooks decorators_name = Ok ld ∧
    attribute ld "data_loader" = Ok vd ∧
    lightning_loads_hooks lightning_name = Ok ll ∧
    attribute ll "LightningModule" = Ok vl ∧
    globals st =
      <["__all__" := VList [VStr "LightningModule"; VStr "data_loader"]]>
        (<["LightningModule" := vl]>
          (on_importer ll
            (<["data_loader" := vd]>
              (on_importer ld
                (<["__doc__" := VStr first_line]>
                  (with_builtins (VModule ["builtins"])
                     (globals fresh_module))))))) ∧
    (∀ n, n ∉ ["__builtins__"; "__doc__"; "data_loader";
               "LightningModule"; "__all__"] →
          (∀ g, on_importer ld g !! n = g !! n) →
          (∀ g, on_importer ll g !! n = g !! n) →
          globals st !! n = globals fresh_module !! n) ∧
    events st = app (app (events fresh_module) (load_events ld)) (load_events ll) ∧
    Forall (λ l, ∀ kw, l ≠ Header kw) module_lines.
Proof.
  eexists. split; [vm_compute; reflexivity|].
  apply (package_import_frame lightning_loads_hooks (VModule ["builtins"])
           first_line fresh_module).
  vm_compute. reflexivity.
Defined.

(** In that run the import leaves [hooks], [lightning] and [__builtins__]
    in the namespace, and one event, and does not bind [decorators]. *)
Example package_import_at_large :
  ∃ st, import_package lightning_loads_hooks (VModule ["builtins"])
          first_line fresh_module = Ok st ∧
    globals st !! "hooks" = Some (VModule ["pytorch_lightning"; "core"; "hooks"]) ∧
    globals st !! "lightning" = Some (VModule lightning_name) ∧
    globals st !! "__builtins__" = Some (VModule ["builtins"]) ∧
    globals st !! "decorators" = None ∧
    events st = [EvGetenv "PATH"].
Proof. eexists. split; [vm_compute; reflexivity|]. vm_compute. done. Qed.

Lemma package_import_raises_in_file_order_witness :
  import_package decorators_raises (VModule ["builtins"]) first_line fresh_module =
    Raise (ModuleNotFoundError ["torch"]) ∧
  (decorators_raises decorators_name = Raise (ModuleNotFoundError ["torch"]) ∨
   (∃ ld, decorators_raises decorators_name = Ok ld ∧
      (attribute ld "data_loader" = Raise (ModuleNotFoundError ["torch"]) ∨
       (∃ vd, attribute ld "data_loader" = Ok vd ∧
          (decorators_raises lightning_name = Raise (ModuleNotFoundError ["torch"]) ∨
           (∃ ll, decorators_raises lightning_name = Ok ll ∧
              attribute ll "LightningModule" =
                Raise (ModuleNotFoundError ["torch"]))))))).
Proof.
  split; [vm_compute; reflexivity|].
  apply (package_import_raises_in_file_order decorators_raises
           (VModule ["builtins"]) first_line fresh_module).
  vm_compute. reflexivity.
Defined.
